(** * Tesla car controller: steering-angle limiter and command scheduling

    A shallow embedding of [opendbc/car/tesla/carcontroller.py].

    Numbers.  Python floats are modelled as exact rationals ([Q]): every
    quantity is finite and arithmetic does not round.  Equality of computed
    values is therefore [Qeq] ([==]); Leibniz equality is used where the code
    copies a value unchanged.  The frame counter, the hands-on level and the
    bus counter are Python integers and are modelled in [Z]; for a positive
    divisor Python's [%] and [//] are [Z.modulo] and [Z.div]. *)

From Stdlib Require Import ZArith QArith Qabs Qminmax List Bool Lia Lqa.
Import ListNotations.
Local Open Scope Q_scope.

(** ** Library functions used by the controller *)

(** Python's built-in [max(a, b)]: [b] when [b > a], otherwise [a]. *)
Definition py_max (a b : Q) : Q := Qmax a b.

(** Python's built-in [min(a, b)]: [b] when [b < a], otherwise [a]. *)
Definition py_min (a b : Q) : Q := Qmin a b.

(** [np.clip(a, a_min, a_max)], which numpy documents as
    [np.minimum(a_max, np.maximum(a, a_min))]; no ordering of the two bounds
    is required, and when [a_min > a_max] the result is [a_max]. *)
Definition np_clip (a a_min a_max : Q) : Q := Qmin a_max (Qmax a a_min).

(** [np.sign]: -1, 0 or 1. *)
Definition np_sign (x : Q) : Q :=
  match x ?= 0 with
  | Lt => -1
  | Eq => 0
  | Gt => 1
  end.

(** [math.degrees(x)] is [x * (180.0 / pi)]; the factor is the double
    57.29577951308232 written as the exact fraction it denotes. *)
Definition radToDeg : Q := 1007958012753983 # 17592186044416.

Definition math_degrees (x : Q) : Q := x * radToDeg.

(** Modelled from the spec: [rate_limit] is imported from [opendbc.car] and
    its body is not part of this file.  Section 4.1 step 2 of the
    specification describes it as limiting the new value relative to the last
    one by a lower and an upper step, that is a clip to
    [[last_value + dw_step, last_value + up_step]]. *)
Definition rate_limit (new_value last_value dw_step up_step : Q) : Q :=
  np_clip new_value (last_value + dw_step) (last_value + up_step).

(** ** Configuration imported from other modules

    The values of these constants live outside this file; they are carried
    as records so that every result holds for any configuration. *)

(** Constants imported from [opendbc.car] and [opendbc.car.interfaces]. *)
Record Constants := {
  ACCELERATION_DUE_TO_GRAVITY : Q;
  ISO_LATERAL_ACCEL : Q;
  DT_CTRL : Q
}.

(** [AngleSteeringLimits]: only [STEER_ANGLE_MAX] is read here. *)
Record AngleSteeringLimits := {
  STEER_ANGLE_MAX : Q
}.

(** The attributes of [CarControllerParams] read by the controller. *)
Record CarControllerParams := {
  STEER_STEP : Q;
  ACCEL_MIN : Q;
  ACCEL_MAX : Q;
  ANGLE_LIMITS : AngleSteeringLimits
}.

(** [VehicleModel]: the curvature model is an external collaborator, a pure
    function of curvature, speed and roll. *)
Record VehicleModel := {
  get_steer_from_curvature : Q -> Q -> Q -> Q
}.

(** [CarParams]: whether this controller owns the longitudinal loop. *)
Record CarParams := {
  openpilotLongitudinalControl : bool
}.

(** ** Tick inputs *)

Module Actuators.
Record t {R : Type} := mk {
  steeringAngleDeg : Q;
  accel : Q;
  rest : R   (* every other actuator field, untouched by the controller *)
}.
Arguments t : clear implicits.
Arguments mk {R}.

(** [as_builder()] followed by an assignment to [steeringAngleDeg]. *)
Definition with_steeringAngleDeg {R} (a : t R) (v : Q) : t R :=
  mk v (accel a) (rest a).
End Actuators.

Module CruiseControl.
Record t := mk {
  cancel : bool
}.
End CruiseControl.

Module CarControl.
Record t {R : Type} := mk {
  actuators : Actuators.t R;
  latActive : bool;
  longActive : bool;
  cruiseControl : CruiseControl.t
}.
Arguments t : clear implicits.
Arguments mk {R}.
End CarControl.

Module CarStateOut.
Record t := mk {
  steeringTorque : Q;
  vEgoRaw : Q;
  vEgo : Q;
  steeringAngleDeg : Q
}.
End CarStateOut.

Module CarState.
Record t := mk {
  out : CarStateOut.t;
  hands_on_level : Z;
  (* CS.das_control["DAS_controlCounter"], a 3-bit bus counter *)
  DAS_controlCounter : Z
}.
End CarState.

(** ** Outbound commands

    The bus encoder [TeslaCAN] is opaque to the controller: a command is
    represented by the encoder call that builds it, with its arguments. *)
Inductive CanMsg :=
| create_steering_control (angle : Q) (enabled : bool)
| create_steering_allowed
| create_longitudinal_command (acc_state : Z) (accel : Q) (cntr : Z) (v_ego : Q) (active : bool).

Definition is_steering_control (m : CanMsg) : bool :=
  match m with create_steering_control _ _ => true | _ => false end.

Definition is_steering_allowed (m : CanMsg) : bool :=
  match m with create_steering_allowed => true | _ => false end.

Definition is_longitudinal_command (m : CanMsg) : bool :=
  match m with create_longitudinal_command _ _ _ _ _ => true | _ => false end.

(** Command states, named as in the comment of the source. *)
Definition ACC_ON : Z := 4.
Definition ACC_CANCEL_GENERIC_SILENT : Z := 13.

(** ** Module constants *)

Definition MAX_ANGLE_RATE : Q := 10.
Definition AVERAGE_ROAD_ROLL : Q := 6 # 100.

(** ** Controller state *)

Record CarController := {
  apply_angle_last : Q;
  driver_torque : Q;     (* internal value of the FirstOrderFilter *)
  angle_modifier : Q;
  frame : Z
}.

(** [__init__]: all zero, frame counter 0 (set by the base class). *)
Definition init : CarController :=
  {| apply_angle_last := 0; driver_torque := 0; angle_modifier := 0; frame := 0%Z |}.

Section Controller.

Variable K : Constants.
Variable P : CarControllerParams.
Variable CP : CarParams.
Variable VM : VehicleModel.

(** [FirstOrderFilter.update]: from the filter's internal value and a new
    sample to the new internal value, which is also what the call returns.
    The filter class is defined in another module. *)
Variable FirstOrderFilter_update : Q -> Q -> Q.

(** The type of the actuator fields the controller does not touch. *)
Variable R : Type.

Definition MAX_LATERAL_ACCEL : Q :=
  ISO_LATERAL_ACCEL K + ACCELERATION_DUE_TO_GRAVITY K * AVERAGE_ROAD_ROLL.

Definition MAX_LATERAL_JERK : Q :=
  3 + ACCELERATION_DUE_TO_GRAVITY K * AVERAGE_ROAD_ROLL.

Definition get_max_angle_delta (v_ego_raw : Q) : Q :=
  let max_curvature_rate_sec := MAX_LATERAL_JERK / (py_max v_ego_raw 1) ^ 2 in
  let max_angle_rate_sec :=
    math_degrees (get_steer_from_curvature VM max_curvature_rate_sec v_ego_raw 0) in
  max_angle_rate_sec * (DT_CTRL K * STEER_STEP P).

Definition get_max_angle (v_ego_raw : Q) : Q :=
  let max_curvature := MAX_LATERAL_ACCEL / (py_max v_ego_raw 1) ^ 2 in
  math_degrees (get_steer_from_curvature VM max_curvature v_ego_raw 0).

Definition apply_tesla_steer_angle_limits
    (apply_angle apply_angle_last v_ego_raw steering_angle : Q)
    (lat_active : bool) (limits : AngleSteeringLimits) : Q :=
  (* max lateral jerk limit *)
  let max_angle_delta := get_max_angle_delta v_ego_raw in
  (* prevent fault *)
  let max_angle_delta := py_min max_angle_delta MAX_ANGLE_RATE in
  let new_apply_angle :=
    rate_limit apply_angle apply_angle_last (- max_angle_delta) max_angle_delta in
  (* max lateral accel limit *)
  let max_angle := get_max_angle v_ego_raw in
  let new_apply_angle := np_clip new_apply_angle (- max_angle) max_angle in
  (* angle is current angle when inactive *)
  let new_apply_angle := if negb lat_active then steering_angle else new_apply_angle in
  (* prevent fault *)
  np_clip new_apply_angle (- STEER_ANGLE_MAX limits) (STEER_ANGLE_MAX limits).

(** Lines 82-85 of [update]: dead band of 0.5 on the driver torque
    (sign-preserving), then a clip to [[-3, 3]]. *)
Definition deadband_torque (steeringTorque : Q) : Q :=
  let driver_torque :=
    if Qle_bool (1 # 2) (Qabs steeringTorque)
    then steeringTorque - (1 # 2) * np_sign steeringTorque
    else 0 in
  np_clip driver_torque (-3) 3.

(** The body of [if CC.latActive: ... else: ...] (lines 90-97): the new
    [angle_modifier] from the filtered torque. *)
Definition update_angle_modifier
    (self : CarController) (CC : CarControl.t R) (CS : CarState.t) (driver_torque : Q) : Q :=
  if CarControl.latActive CC then
    (* let's say that 1 nm = 1 m/s^2 of lateral acceleration *)
    let v := py_max (CarStateOut.vEgoRaw (CarState.out CS)) 20 in
    let curvature_from_torque := driver_torque / v ^ 2 in
    let angle_from_torque :=
      math_degrees (get_steer_from_curvature VM curvature_from_torque v 0) in
    np_clip angle_from_torque (angle_modifier self - 5) (angle_modifier self + 5)
  else 0.

(** The block [if self.frame % 2 == 0:] (lines 88-104): the new
    [angle_modifier], the new [apply_angle_last] and the commands appended. *)
Definition steering_block
    (self : CarController) (CC : CarControl.t R) (CS : CarState.t)
    (lat_active : bool) (driver_torque : Q) (can_sends : list CanMsg)
    : Q * Q * list CanMsg :=
  if (frame self mod 2 =? 0)%Z then
    let angle_modifier := update_angle_modifier self CC CS driver_torque in
    let apply_angle :=
      Actuators.steeringAngleDeg (CarControl.actuators CC) + angle_modifier in
    let apply_angle_last :=
      apply_tesla_steer_angle_limits apply_angle (apply_angle_last self)
        (CarStateOut.vEgoRaw (CarState.out CS))
        (CarStateOut.steeringAngleDeg (CarState.out CS))
        lat_active (ANGLE_LIMITS P) in
    (angle_modifier, apply_angle_last,
     can_sends ++ [create_steering_control apply_angle_last lat_active])
  else (angle_modifier self, apply_angle_last self, can_sends).

(** The block [if self.frame % 10 == 0:] (lines 106-107). *)
Definition steering_allowed_block (self : CarController) (can_sends : list CanMsg)
    : list CanMsg :=
  if (frame self mod 10 =? 0)%Z then can_sends ++ [create_steering_allowed]
  else can_sends.

(** Longitudinal control (lines 109-121). *)
Definition longitudinal_block
    (self : CarController) (CC : CarControl.t R) (CS : CarState.t)
    (can_sends : list CanMsg) : list CanMsg :=
  if openpilotLongitudinalControl CP then
    if (frame self mod 4 =? 0)%Z then
      let state :=
        if CruiseControl.cancel (CarControl.cruiseControl CC)
        then ACC_CANCEL_GENERIC_SILENT else ACC_ON in
      let accel :=
        np_clip (Actuators.accel (CarControl.actuators CC)) (ACCEL_MIN P) (ACCEL_MAX P) in
      let cntr := ((frame self / 4) mod 8)%Z in
      can_sends ++ [create_longitudinal_command state accel cntr
                      (CarStateOut.vEgo (CarState.out CS)) (CarControl.longActive CC)]
    else can_sends
  else
    (* Increment counter so cancel is prioritized even without openpilot longitudinal *)
    if CruiseControl.cancel (CarControl.cruiseControl CC) then
      let cntr := ((CarState.DAS_controlCounter CS + 1) mod 8)%Z in
      can_sends ++ [create_longitudinal_command ACC_CANCEL_GENERIC_SILENT 0 cntr
                      (CarStateOut.vEgo (CarState.out CS)) false]
    else can_sends.

(** [CarController.update]: the returned pair [(new_actuators, can_sends)]
    and the controller after the call. *)
Definition update
    (self : CarController) (CC : CarControl.t R) (CS : CarState.t) (now_nanos : Z)
    : (Actuators.t R * list CanMsg) * CarController :=
  let actuators := CarControl.actuators CC in
  let can_sends := [] in
  let lat_active := CarControl.latActive CC && (CarState.hands_on_level CS <? 3)%Z in
  let torque := deadband_torque (CarStateOut.steeringTorque (CarState.out CS)) in
  let torque := FirstOrderFilter_update (driver_torque self) torque in
  let steer := steering_block self CC CS lat_active torque can_sends in
  let angle_modifier := fst (fst steer) in
  let apply_angle_last := snd (fst steer) in
  let can_sends := snd steer in
  let can_sends := steering_allowed_block self can_sends in
  let can_sends := longitudinal_block self CC CS can_sends in
  let new_actuators := Actuators.with_steeringAngleDeg actuators apply_angle_last in
  ((new_actuators, can_sends),
   {| apply_angle_last := apply_angle_last;
      driver_torque := torque;
      angle_modifier := angle_modifier;
      frame := frame self + 1 |}).

(** *** Names for the values one call of [update] computes *)

(** The value the filter returns on this tick. *)
Definition filtered_torque (self : CarController) (CS : CarState.t) : Q :=
  FirstOrderFilter_update (driver_torque self)
    (deadband_torque (CarStateOut.steeringTorque (CarState.out CS))).

(** The flag computed on line 79. *)
Definition lat_active_of (CC : CarControl.t R) (CS : CarState.t) : bool :=
  CarControl.latActive CC && (CarState.hands_on_level CS <? 3)%Z.

(** The steering command built on an even frame. *)
Definition steering_command_of (self : CarController) (CC : CarControl.t R) (CS : CarState.t)
    : CanMsg :=
  let am := update_angle_modifier self CC CS (filtered_torque self CS) in
  create_steering_control
    (apply_tesla_steer_angle_limits (Actuators.steeringAngleDeg (CarControl.actuators CC) + am)
       (apply_angle_last self)
       (CarStateOut.vEgoRaw (CarState.out CS))
       (CarStateOut.steeringAngleDeg (CarState.out CS))
       (lat_active_of CC CS) (ANGLE_LIMITS P))
    (lat_active_of CC CS).

(** The longitudinal command built in owned mode on a frame divisible by 4. *)
Definition owned_command_of (self : CarController) (CC : CarControl.t R) (CS : CarState.t)
    : CanMsg :=
  create_longitudinal_command
    (if CruiseControl.cancel (CarControl.cruiseControl CC)
     then ACC_CANCEL_GENERIC_SILENT else ACC_ON)
    (np_clip (Actuators.accel (CarControl.actuators CC)) (ACCEL_MIN P) (ACCEL_MAX P))
    ((frame self / 4) mod 8)%Z
    (CarStateOut.vEgo (CarState.out CS))
    (CarControl.longActive CC).

(** The cancel command built in unowned mode. *)
Definition unowned_cancel_of (CS : CarState.t) : CanMsg :=
  create_longitudinal_command ACC_CANCEL_GENERIC_SILENT 0
    ((CarState.DAS_controlCounter CS + 1) mod 8)%Z
    (CarStateOut.vEgo (CarState.out CS)) false.

(** The rate bound of one limiter call: the jerk-derived per-cycle delta
    capped by [MAX_ANGLE_RATE] (lines 33-36). *)
Definition max_angle_step (v_ego_raw : Q) : Q :=
  py_min (get_max_angle_delta v_ego_raw) MAX_ANGLE_RATE.

(** [n] successive calls of the limiter with lateral control active, each
    given the result of the call before as its previous angle, for a fixed
    request, speed and measured angle. *)
Fixpoint limiter_steps (n : nat)
    (apply_angle apply_angle_last v_ego_raw steering_angle : Q)
    (limits : AngleSteeringLimits) : Q :=
  match n with
  | O => apply_angle_last
  | S n' =>
      limiter_steps n' apply_angle
        (apply_tesla_steer_angle_limits apply_angle apply_angle_last v_ego_raw
           steering_angle true limits)
        v_ego_raw steering_angle limits
  end.

(** One tick of input: the arguments of [update]. *)
Definition Tick : Type := CarControl.t R * CarState.t * Z.

Definition update_tick (self : CarController) (tk : Tick) :=
  update self (fst (fst tk)) (snd (fst tk)) (snd tk).

(** The controller after a sequence of ticks. *)
Fixpoint run (self : CarController) (ticks : list Tick) : CarController :=
  match ticks with
  | [] => self
  | tk :: ticks' => run (snd (update_tick self tk)) ticks'
  end.

End Controller.

Arguments update_angle_modifier VM {R} self CC CS driver_torque.
Arguments steering_block K P VM {R} self CC CS lat_active driver_torque can_sends.
Arguments longitudinal_block P CP {R} self CC CS can_sends.
Arguments update K P CP VM FirstOrderFilter_update {R} self CC CS now_nanos.
Arguments lat_active_of {R} CC CS.
Arguments steering_command_of K P VM FirstOrderFilter_update {R} self CC CS.
Arguments owned_command_of P {R} self CC CS.
Arguments run K P CP VM FirstOrderFilter_update {R} self ticks.
Arguments update_tick K P CP VM FirstOrderFilter_update {R} self tk.

(** ** A sample configuration

    Used to evaluate the model on concrete inputs. *)
Module Sample.

Definition K : Constants :=
  {| ACCELERATION_DUE_TO_GRAVITY := 981 # 100; ISO_LATERAL_ACCEL := 3; DT_CTRL := 1 # 100 |}.

Definition P : CarControllerParams :=
  {| STEER_STEP := 2; ACCEL_MIN := - (348 # 100); ACCEL_MAX := 2;
     ANGLE_LIMITS := {| STEER_ANGLE_MAX := 360 |} |}.

Definition owned : CarParams := {| openpilotLongitudinalControl := true |}.
Definition unowned : CarParams := {| openpilotLongitudinalControl := false |}.

(** A kinematic curvature model without slip or roll compensation:
    steering angle = curvature * steer ratio * wheelbase (15 * 3). *)
Definition VM : VehicleModel :=
  {| get_steer_from_curvature := fun curv u roll => curv * 45 |}.

(** A first-order low-pass filter [x' = (1 - alpha) x + alpha u] with
    [alpha = dt / (rc + dt)], [rc = 0.003] and [dt = DT_CTRL]. *)
Definition alpha : Q := DT_CTRL K / ((3 # 1000) + DT_CTRL K).
Definition lowpass (x u : Q) : Q := (1 - alpha) * x + alpha * u.

Definition actuators (angle accel : Q) : Actuators.t unit :=
  Actuators.mk angle accel tt.

Definition CC (angle accel : Q) (latActive longActive cancel : bool) : CarControl.t unit :=
  CarControl.mk (actuators angle accel) latActive longActive (CruiseControl.mk cancel).

Definition CS (steeringTorque vEgoRaw steeringAngleDeg : Q) (hands_on_level counter : Z)
    : CarState.t :=
  CarState.mk (CarStateOut.mk steeringTorque vEgoRaw vEgoRaw steeringAngleDeg)
    hands_on_level counter.

(** Lateral control requested, driver pushing with torque 3.5 at 20 m/s. *)
Definition tick_driver_push : Tick unit :=
  (CC 0 0 true false false, CS (7 # 2) 20 0 0 0, 0%Z).

(** Lateral control off while the wheel is held at 30 degrees at 20 m/s. *)
Definition tick_off_at_30 : Tick unit :=
  (CC 0 0 false false false, CS 0 20 30 0 0, 0%Z).

(** A quiet tick: nothing requested, nothing measured. *)
Definition tick_idle : Tick unit :=
  (CC 0 0 false false false, CS 0 20 0 0 0, 0%Z).

End Sample.

(** * Properties *)

(** ** Order facts about clipping *)

Ltac name_max a b :=
  let H := fresh "Hmax" in
  let m := fresh "m" in
  pose proof (Q.max_spec a b) as H; set (m := Qmax a b) in *; clearbody m.

Ltac name_min a b :=
  let H := fresh "Hmin" in
  let m := fresh "m" in
  pose proof (Q.min_spec a b) as H; set (m := Qmin a b) in *; clearbody m.

Ltac name_abs a :=
  let H := fresh "Habs" in
  let m := fresh "m" in
  assert (H : (0 <= a /\ Qabs a == a) \/ (a <= 0 /\ Qabs a == - a))
    by (apply (Qabs_case a (fun r => (0 <= a /\ r == a) \/ (a <= 0 /\ r == - a)));
        intros; [left | right]; split; auto; reflexivity);
  set (m := Qabs a) in *; clearbody m.

(** Replace every [Qmax], [Qmin] and [Qabs] by a name with its
    characterisation, innermost occurrences included. *)
Ltac name_minmax :=
  repeat match goal with
  | |- context [Qmax ?a ?b] => name_max a b
  | |- context [Qmin ?a ?b] => name_min a b
  | |- context [Qabs ?a] => name_abs a
  | H : context [Qmax ?a ?b] |- _ => name_max a b
  | H : context [Qmin ?a ?b] |- _ => name_min a b
  | H : context [Qabs ?a] |- _ => name_abs a
  end.

Ltac clip_lra :=
  unfold rate_limit, np_clip, py_min, py_max in *; name_minmax; lra.

Lemma np_clip_upper (a lo hi : Q) : np_clip a lo hi <= hi.
Proof. clip_lra. Qed.

Lemma np_clip_lower (a lo hi : Q) : lo <= hi -> lo <= np_clip a lo hi.
Proof. intros; clip_lra. Qed.

Lemma np_clip_inside (a lo hi : Q) : lo <= a <= hi -> np_clip a lo hi == a.
Proof. intros; clip_lra. Qed.

Lemma np_clip_above (a lo hi : Q) : hi <= a -> np_clip a lo hi == hi.
Proof. intros; clip_lra. Qed.

Lemma np_clip_symmetric_abs (a m : Q) : 0 <= m -> Qabs (np_clip a (- m) m) <= m.
Proof. intros; clip_lra. Qed.

(** Clipping to an interval that contains [c] never moves a value away
    from [c]. *)
Lemma np_clip_towards (a c lo hi : Q) :
  lo <= c <= hi -> Qabs (np_clip a lo hi - c) <= Qabs (a - c).
Proof. intros; clip_lra. Qed.

(** The divisors [max(v_ego_raw, 1) ** 2] and [max(vEgoRaw, 20) ** 2] are
    positive for every speed, so no division of the controller can fail. *)
Lemma speed_floor_positive (v floor : Q) : 0 < floor -> 0 < (py_max v floor) ^ 2.
Proof.
  intros Hfloor. unfold py_max.
  assert (Hm : floor <= Qmax v floor) by (name_minmax; lra).
  change ((Qmax v floor) ^ 2) with (Qmax v floor * Qmax v floor).
  generalize dependent (Qmax v floor); intros m Hm. nra.
Qed.

Lemma rate_limit_step (new_value last_value step : Q) :
  0 <= step -> Qabs (rate_limit new_value last_value (- step) step - last_value) <= step.
Proof. intros; clip_lra. Qed.

Section Properties.

Variable K : Constants.
Variable P : CarControllerParams.
Variable CP : CarParams.
Variable VM : VehicleModel.
Variable FirstOrderFilter_update : Q -> Q -> Q.
Variable R : Type.

Local Abbreviation limiter := (apply_tesla_steer_angle_limits K P VM).
Local Abbreviation upd := (@update K P CP VM FirstOrderFilter_update R).
Local Abbreviation STEER_MAX := (STEER_ANGLE_MAX (ANGLE_LIMITS P)).
Local Abbreviation filtered := (filtered_torque FirstOrderFilter_update).
Local Abbreviation steering_cmd := (@steering_command_of K P VM FirstOrderFilter_update R).
Local Abbreviation owned_cmd := (@owned_command_of P R).

(** *** What one call of [update] produces, field by field *)

Lemma update_frame self CC CS n : frame (snd (upd self CC CS n)) = (frame self + 1)%Z.
Proof. reflexivity. Qed.

Lemma update_driver_torque self CC CS n :
  driver_torque (snd (upd self CC CS n)) = filtered self CS.
Proof. reflexivity. Qed.

Lemma update_angle_modifier_eq self CC CS n :
  angle_modifier (snd (upd self CC CS n)) =
  if (frame self mod 2 =? 0)%Z
  then update_angle_modifier VM self CC CS (filtered self CS)
  else angle_modifier self.
Proof.
  unfold update, steering_block; cbn.
  destruct (frame self mod 2 =? 0)%Z; reflexivity.
Qed.

Lemma update_apply_angle_last self CC CS n :
  apply_angle_last (snd (upd self CC CS n)) =
  if (frame self mod 2 =? 0)%Z
  then limiter
         (Actuators.steeringAngleDeg (CarControl.actuators CC)
          + update_angle_modifier VM self CC CS (filtered self CS))
         (apply_angle_last self)
         (CarStateOut.vEgoRaw (CarState.out CS))
         (CarStateOut.steeringAngleDeg (CarState.out CS))
         (lat_active_of CC CS) (ANGLE_LIMITS P)
  else apply_angle_last self.
Proof.
  unfold update, steering_block; cbn.
  destruct (frame self mod 2 =? 0)%Z; reflexivity.
Qed.


Lemma update_can_sends self CC CS n :
  snd (fst (upd self CC CS n)) =
  (if (frame self mod 2 =? 0)%Z then [steering_cmd self CC CS] else [])
  ++ (if (frame self mod 10 =? 0)%Z then [create_steering_allowed] else [])
  ++ (if openpilotLongitudinalControl CP
      then if (frame self mod 4 =? 0)%Z then [owned_cmd self CC CS] else []
      else if CruiseControl.cancel (CarControl.cruiseControl CC)
           then [unowned_cancel_of CS] else []).
Proof.
  unfold update, steering_block, steering_allowed_block, longitudinal_block,
    steering_command_of, owned_command_of, unowned_cancel_of, filtered_torque,
    lat_active_of; cbn.
  destruct (frame self mod 2 =? 0)%Z, (frame self mod 10 =? 0)%Z,
    (openpilotLongitudinalControl CP), (frame self mod 4 =? 0)%Z,
    (CruiseControl.cancel (CarControl.cruiseControl CC)); reflexivity.
Qed.

Lemma filter_kind_app (f : CanMsg -> bool) (l1 l2 l3 : list CanMsg) :
  filter f (l1 ++ l2 ++ l3) = filter f l1 ++ filter f l2 ++ filter f l3.
Proof. rewrite !filter_app; reflexivity. Qed.

Lemma update_longitudinal_commands self CC CS n :
  filter is_longitudinal_command (snd (fst (upd self CC CS n))) =
  if openpilotLongitudinalControl CP
  then if (frame self mod 4 =? 0)%Z then [owned_cmd self CC CS] else []
  else if CruiseControl.cancel (CarControl.cruiseControl CC)
       then [unowned_cancel_of CS] else [].
Proof.
  rewrite update_can_sends, filter_kind_app.
  destruct (frame self mod 2 =? 0)%Z, (frame self mod 10 =? 0)%Z,
    (openpilotLongitudinalControl CP), (frame self mod 4 =? 0)%Z,
    (CruiseControl.cancel (CarControl.cruiseControl CC)); reflexivity.
Qed.

Lemma update_steering_commands self CC CS n :
  filter is_steering_control (snd (fst (upd self CC CS n))) =
  if (frame self mod 2 =? 0)%Z then [steering_cmd self CC CS] else [].
Proof.
  rewrite update_can_sends, filter_kind_app.
  destruct (frame self mod 2 =? 0)%Z, (frame self mod 10 =? 0)%Z,
    (openpilotLongitudinalControl CP), (frame self mod 4 =? 0)%Z,
    (CruiseControl.cancel (CarControl.cruiseControl CC)); reflexivity.
Qed.

Lemma update_steering_allowed_commands self CC CS n :
  filter is_steering_allowed (snd (fst (upd self CC CS n))) =
  if (frame self mod 10 =? 0)%Z then [create_steering_allowed] else [].
Proof.
  rewrite update_can_sends, filter_kind_app.
  destruct (frame self mod 2 =? 0)%Z, (frame self mod 10 =? 0)%Z,
    (openpilotLongitudinalControl CP), (frame self mod 4 =? 0)%Z,
    (CruiseControl.cancel (CarControl.cruiseControl CC)); reflexivity.
Qed.

(** *** The limiter *)

Lemma limiter_abs_bound a l v s lat limits :
  0 <= STEER_ANGLE_MAX limits ->
  Qabs (limiter a l v s lat limits) <= STEER_ANGLE_MAX limits.
Proof.
  intros; unfold apply_tesla_steer_angle_limits; cbv zeta.
  apply np_clip_symmetric_abs; assumption.
Qed.

Lemma limiter_inactive a l v s limits :
  limiter a l v s false limits =
  np_clip s (- STEER_ANGLE_MAX limits) (STEER_ANGLE_MAX limits).
Proof. reflexivity. Qed.

Lemma update_keeps_bound self CC CS n :
  0 <= STEER_MAX ->
  Qabs (apply_angle_last self) <= STEER_MAX ->
  Qabs (apply_angle_last (snd (upd self CC CS n))) <= STEER_MAX.
Proof.
  intros HM Hself; rewrite update_apply_angle_last.
  destruct (frame self mod 2 =? 0)%Z; [apply limiter_abs_bound|]; assumption.
Qed.

Lemma run_keeps_bound (ticks : list (Tick R)) : forall self,
  0 <= STEER_MAX ->
  Qabs (apply_angle_last self) <= STEER_MAX ->
  Qabs (apply_angle_last (run K P CP VM FirstOrderFilter_update self ticks)) <= STEER_MAX.
Proof.
  induction ticks as [|tk ticks IH]; intros self HM Hself; cbn [run]; [assumption|].
  apply IH; [assumption|]. unfold update_tick. apply update_keeps_bound; assumption.
Qed.

(** C1.  With a non-negative configured maximum [STEER_ANGLE_MAX], the
    limiter's result has magnitude at most [STEER_ANGLE_MAX] for every
    candidate angle, previous angle, speed, measured angle and lateral-active
    flag; and [apply_angle_last], which starts at 0, stays within
    [[-STEER_ANGLE_MAX, STEER_ANGLE_MAX]] after every sequence of [update]
    calls. *)
Theorem steer_angle_within_absolute_max :
  0 <= STEER_MAX ->
  (forall apply_angle last v_ego_raw steering_angle lat_active,
      Qabs (limiter apply_angle last v_ego_raw steering_angle lat_active (ANGLE_LIMITS P))
      <= STEER_MAX)
  /\ (forall ticks : list (Tick R),
        - STEER_MAX <= apply_angle_last (run K P CP VM FirstOrderFilter_update init ticks)
        <= STEER_MAX).
Proof.
  intros HM; split.
  - intros; apply limiter_abs_bound; assumption.
  - intros ticks; apply Qabs_Qle_condition, run_keeps_bound; [assumption|].
    cbn; assumption.
Qed.

(** C3 (as amended).  When the lateral-active flag is false the limiter
    returns the measured steering angle clipped to
    [[-STEER_ANGLE_MAX, STEER_ANGLE_MAX]], whatever the candidate angle, the
    previous angle and the speed: the measured angle itself when it is within
    the absolute maximum, [STEER_ANGLE_MAX] when it is at or above it, and
    [-STEER_ANGLE_MAX] when it is at or below that (for a non-negative
    maximum). *)
Theorem inactive_limiter_returns_clamped_measured_angle :
  forall apply_angle last v_ego_raw steering_angle limits,
    limiter apply_angle last v_ego_raw steering_angle false limits
      = np_clip steering_angle (- STEER_ANGLE_MAX limits) (STEER_ANGLE_MAX limits)
    /\ (Qabs steering_angle <= STEER_ANGLE_MAX limits ->
        limiter apply_angle last v_ego_raw steering_angle false limits == steering_angle)
    /\ (STEER_ANGLE_MAX limits <= steering_angle ->
        limiter apply_angle last v_ego_raw steering_angle false limits
        == STEER_ANGLE_MAX limits)
    /\ (0 <= STEER_ANGLE_MAX limits ->
        steering_angle <= - STEER_ANGLE_MAX limits ->
        limiter apply_angle last v_ego_raw steering_angle false limits
        == - STEER_ANGLE_MAX limits).
Proof.
  intros a l v s limits. rewrite limiter_inactive.
  generalize (STEER_ANGLE_MAX limits); intros M.
  split; [reflexivity|]. repeat split; intros; clip_lra.
Qed.

(** *** Rate of change of the applied angle *)

Lemma limiter_active_step a l v s limits :
  0 <= max_angle_step K P VM v ->
  Qabs l <= get_max_angle K VM v ->
  Qabs l <= STEER_ANGLE_MAX limits ->
  Qabs (limiter a l v s true limits - l) <= max_angle_step K P VM v.
Proof.
  unfold apply_tesla_steer_angle_limits, max_angle_step; cbn [negb]; cbv zeta.
  generalize (get_max_angle_delta K P VM v), (get_max_angle K VM v),
    (STEER_ANGLE_MAX limits).
  intros delta max_angle M H0 H1 H2. clip_lra.
Qed.

Lemma limiter_jump_never_passes a s limits :
  MAX_ANGLE_RATE < a -> ~ limiter a 0 20 s true limits == a.
Proof.
  unfold apply_tesla_steer_angle_limits, MAX_ANGLE_RATE; cbn [negb]; cbv zeta.
  generalize (get_max_angle_delta K P VM 20), (get_max_angle K VM 20),
    (STEER_ANGLE_MAX limits).
  intros delta max_angle M Ha. clip_lra.
Qed.

Lemma limiter_jump_is_rate_step a s limits :
  MAX_ANGLE_RATE <= a ->
  0 <= max_angle_step K P VM 20 <= get_max_angle K VM 20 ->
  max_angle_step K P VM 20 <= STEER_ANGLE_MAX limits ->
  limiter a 0 20 s true limits == max_angle_step K P VM 20.
Proof.
  unfold apply_tesla_steer_angle_limits, max_angle_step, MAX_ANGLE_RATE;
    cbn [negb]; cbv zeta.
  generalize (get_max_angle_delta K P VM 20), (get_max_angle K VM 20),
    (STEER_ANGLE_MAX limits).
  intros delta max_angle M Ha H1 H2. clip_lra.
Qed.

(** C2 (as amended).  On a tick where the limiter runs ([frame mod 2 = 0])
    with the lateral-active flag true, a non-negative rate bound
    [min(get_max_angle_delta, MAX_ANGLE_RATE)] and a previous angle within
    both the lateral-acceleration bound [get_max_angle] of the current speed
    and [STEER_ANGLE_MAX], [apply_angle_last] moves by at most that rate
    bound.  On a tick where the limiter runs with the flag false the new
    [apply_angle_last] is the measured steering angle clipped to
    [STEER_ANGLE_MAX], whatever the previous angle, so that step is not rate
    limited.  On a tick where the limiter does not run [apply_angle_last] is
    unchanged.  At speed 20 with previous angle 0, lateral active and
    candidate 50 the output is never 50, and it is exactly the rate bound
    whenever that bound is non-negative and within [get_max_angle 20] and
    [STEER_ANGLE_MAX]. *)
Theorem steer_angle_step_rate_limited_when_active :
  (forall self CC CS n,
      let v := CarStateOut.vEgoRaw (CarState.out CS) in
      let measured := CarStateOut.steeringAngleDeg (CarState.out CS) in
      let last' := apply_angle_last (snd (upd self CC CS n)) in
      ((frame self mod 2 =? 0)%Z = true ->
       lat_active_of CC CS = true ->
       0 <= max_angle_step K P VM v ->
       Qabs (apply_angle_last self) <= get_max_angle K VM v ->
       Qabs (apply_angle_last self) <= STEER_MAX ->
       Qabs (last' - apply_angle_last self) <= max_angle_step K P VM v)
      /\ ((frame self mod 2 =? 0)%Z = true ->
          lat_active_of CC CS = false ->
          last' = np_clip measured (- STEER_MAX) STEER_MAX)
      /\ ((frame self mod 2 =? 0)%Z = false -> last' = apply_angle_last self))
  /\ (forall steering_angle limits,
        ~ limiter 50 0 20 steering_angle true limits == 50
        /\ (0 <= max_angle_step K P VM 20 <= get_max_angle K VM 20 ->
            max_angle_step K P VM 20 <= STEER_ANGLE_MAX limits ->
            limiter 50 0 20 steering_angle true limits == max_angle_step K P VM 20)).
Proof.
  split.
  - intros self CC CS n v measured last'; subst last'.
    rewrite update_apply_angle_last.
    split; [|split].
    + intros -> Hact Hstep Hacc Hmax.
      rewrite Hact. apply limiter_active_step; assumption.
    + intros -> Hoff. rewrite Hoff. apply limiter_inactive.
    + intros ->. reflexivity.
  - intros s limits; split.
    + apply limiter_jump_never_passes. unfold MAX_ANGLE_RATE; lra.
    + apply limiter_jump_is_rate_step. unfold MAX_ANGLE_RATE; lra.
Qed.

(** *** Command schedule *)

(** C4 (as amended).  [update] appends exactly one steering command on the
    frames with [frame mod 2 = 0] and none on the others, and exactly one
    steering-allowed heartbeat on the frames with [frame mod 10 = 0] and none
    on the others.  When the controller owns longitudinal control it appends
    exactly one longitudinal command on the frames with [frame mod 4 = 0] and
    none on the others; when it does not, it appends exactly one longitudinal
    command on every frame with a cancel request, whatever the frame number,
    and none without a cancel request. *)
Theorem command_schedule :
  forall self CC CS n,
    let can_sends := snd (fst (upd self CC CS n)) in
    length (filter is_steering_control can_sends)
      = (if (frame self mod 2 =? 0)%Z then 1 else 0)%nat
    /\ length (filter is_steering_allowed can_sends)
      = (if (frame self mod 10 =? 0)%Z then 1 else 0)%nat
    /\ length (filter is_longitudinal_command can_sends)
      = (if openpilotLongitudinalControl CP
         then if (frame self mod 4 =? 0)%Z then 1 else 0
         else if CruiseControl.cancel (CarControl.cruiseControl CC) then 1 else 0)%nat.
Proof.
  intros self CC CS n can_sends; subst can_sends.
  rewrite update_steering_commands, update_steering_allowed_commands,
    update_longitudinal_commands.
  destruct (frame self mod 2 =? 0)%Z, (frame self mod 10 =? 0)%Z,
    (openpilotLongitudinalControl CP), (frame self mod 4 =? 0)%Z,
    (CruiseControl.cancel (CarControl.cruiseControl CC)); repeat split.
Qed.

(** *** The driver-torque angle modifier *)

(** C5 (as amended).  On a steering-rate update ([frame mod 2 = 0]) with
    lateral control requested, [angle_modifier] changes by at most 5 degrees;
    on a steering-rate update with lateral control not requested it becomes
    exactly 0, whatever its previous value; on the other frames it is
    unchanged. *)
Theorem angle_modifier_step :
  forall self CC CS n,
    let self' := snd (upd self CC CS n) in
    ((frame self mod 2 =? 0)%Z = true -> CarControl.latActive CC = true ->
       Qabs (angle_modifier self' - angle_modifier self) <= 5)
    /\ ((frame self mod 2 =? 0)%Z = true -> CarControl.latActive CC = false ->
          angle_modifier self' = 0)
    /\ ((frame self mod 2 =? 0)%Z = false -> angle_modifier self' = angle_modifier self).
Proof.
  intros self CC CS n self'; subst self'.
  rewrite update_angle_modifier_eq; unfold update_angle_modifier.
  repeat split; intros Hf; rewrite Hf; try reflexivity; intros Hl; rewrite Hl;
    [|reflexivity].
  cbv zeta. clip_lra.
Qed.

(** *** Longitudinal arbitration *)

Lemma mod8_range (z : Z) : (0 <= z mod 8 <= 7)%Z.
Proof. pose proof (Z.mod_pos_bound z 8); lia. Qed.

Lemma longitudinal_command_is_filtered (m : CanMsg) (l : list CanMsg) :
  In m l -> is_longitudinal_command m = true -> In m (filter is_longitudinal_command l).
Proof. intros; apply filter_In; split; assumption. Qed.

(** C6.  Every longitudinal command [update] emits carries a counter in
    [[0, 7]]: in owned mode it is [(frame // 4) % 8]; in unowned mode the
    command has counter [(DAS_controlCounter + 1) % 8], state CANCEL,
    acceleration 0 and is longitudinal-inactive, and such a command is
    emitted whenever a cancel request is pending; an observed counter of 6
    gives an emitted counter of 7. *)
Theorem longitudinal_command_counter :
  forall self CC CS n,
    let can_sends := snd (fst (upd self CC CS n)) in
    (forall acc_state accel cntr v_ego active,
        In (create_longitudinal_command acc_state accel cntr v_ego active) can_sends ->
        (0 <= cntr <= 7)%Z
        /\ (openpilotLongitudinalControl CP = true -> cntr = ((frame self / 4) mod 8)%Z)
        /\ (openpilotLongitudinalControl CP = false ->
            cntr = ((CarState.DAS_controlCounter CS + 1) mod 8)%Z
            /\ acc_state = ACC_CANCEL_GENERIC_SILENT /\ accel = 0 /\ active = false))
    /\ (openpilotLongitudinalControl CP = false ->
        CruiseControl.cancel (CarControl.cruiseControl CC) = true ->
        filter is_longitudinal_command can_sends =
          [create_longitudinal_command ACC_CANCEL_GENERIC_SILENT 0
             ((CarState.DAS_controlCounter CS + 1) mod 8)%Z
             (CarStateOut.vEgo (CarState.out CS)) false]
        /\ (CarState.DAS_controlCounter CS = 6%Z ->
            In (create_longitudinal_command ACC_CANCEL_GENERIC_SILENT 0 7
                  (CarStateOut.vEgo (CarState.out CS)) false) can_sends)).
Proof.
  intros self CC CS n can_sends; subst can_sends; split.
  - intros st a c v act Hin.
    apply longitudinal_command_is_filtered in Hin; [|reflexivity].
    rewrite update_longitudinal_commands in Hin.
    unfold owned_command_of, unowned_cancel_of in Hin.
    destruct (openpilotLongitudinalControl CP), (frame self mod 4 =? 0)%Z,
      (CruiseControl.cancel (CarControl.cruiseControl CC));
      cbn in Hin; try contradiction;
      destruct Hin as [Heq|[]]; injection Heq as <- <- <- <- <-;
      (split; [apply mod8_range|]);
      split; intros Hmode; try discriminate Hmode; repeat split; reflexivity.
  - intros Hmode Hcancel.
    assert (Hf := update_longitudinal_commands self CC CS n).
    rewrite Hmode, Hcancel in Hf. split; [exact Hf|].
    intros H6.
    assert (Hin : In (unowned_cancel_of CS)
                    (filter is_longitudinal_command (snd (fst (upd self CC CS n)))))
      by (rewrite Hf; left; reflexivity).
    apply filter_In in Hin. destruct Hin as [Hin _].
    unfold unowned_cancel_of in Hin. rewrite H6 in Hin. exact Hin.
Qed.

(** C7.  In owned mode, on a frame with [frame mod 4 = 0], the one
    longitudinal command emitted has state CANCEL when a cancel request is
    pending and ACTIVE otherwise, and its acceleration is the desired
    acceleration clipped with [ACCEL_MIN] and [ACCEL_MAX]: never above
    [ACCEL_MAX], equal to [ACCEL_MAX] when the request is at or above it (5.0
    with [ACCEL_MAX] 2.0 is emitted as 2.0), and, when
    [ACCEL_MIN <= ACCEL_MAX], never below [ACCEL_MIN], equal to the request
    inside the interval and to [ACCEL_MIN] below it. *)
Theorem owned_longitudinal_command :
  forall self CC CS n,
    openpilotLongitudinalControl CP = true ->
    (frame self mod 4 =? 0)%Z = true ->
    let desired := Actuators.accel (CarControl.actuators CC) in
    let accel := np_clip desired (ACCEL_MIN P) (ACCEL_MAX P) in
    filter is_longitudinal_command (snd (fst (upd self CC CS n))) =
      [create_longitudinal_command
         (if CruiseControl.cancel (CarControl.cruiseControl CC)
          then ACC_CANCEL_GENERIC_SILENT else ACC_ON)
         accel ((frame self / 4) mod 8)%Z
         (CarStateOut.vEgo (CarState.out CS)) (CarControl.longActive CC)]
    /\ accel <= ACCEL_MAX P
    /\ (ACCEL_MAX P <= desired -> accel == ACCEL_MAX P)
    /\ (ACCEL_MIN P <= ACCEL_MAX P ->
        ACCEL_MIN P <= accel
        /\ (ACCEL_MIN P <= desired <= ACCEL_MAX P -> accel == desired)
        /\ (desired <= ACCEL_MIN P -> accel == ACCEL_MIN P)).
Proof.
  intros self CC CS n Hmode Hframe desired accel; subst accel.
  split.
  - rewrite update_longitudinal_commands, Hmode, Hframe. reflexivity.
  - generalize desired, (ACCEL_MIN P), (ACCEL_MAX P); intros d lo hi.
    repeat split; intros; clip_lra.
Qed.

(** *** The lateral-active flag *)

(** C9.  On a steering-rate frame the flag handed to the limiter and
    embedded in the steering command is [CC.latActive and hands_on_level < 3].
    Hence with a hands-on level of 3 or more the applied angle is the
    measured steering angle (clipped to [STEER_ANGLE_MAX], so the measured
    angle itself when within it) and the steering command is sent inactive,
    even when lateral control is requested; the [angle_modifier] update is
    gated on [CC.latActive] alone and is still the clipped torque angle. *)
Theorem lat_active_requires_light_hands :
  forall self CC CS n,
    (frame self mod 2 =? 0)%Z = true ->
    let self' := snd (upd self CC CS n) in
    let can_sends := snd (fst (upd self CC CS n)) in
    let lat_active := CarControl.latActive CC && (CarState.hands_on_level CS <? 3)%Z in
    let measured := CarStateOut.steeringAngleDeg (CarState.out CS) in
    apply_angle_last self' =
      limiter (Actuators.steeringAngleDeg (CarControl.actuators CC) + angle_modifier self')
        (apply_angle_last self) (CarStateOut.vEgoRaw (CarState.out CS)) measured
        lat_active (ANGLE_LIMITS P)
    /\ filter is_steering_control can_sends
       = [create_steering_control (apply_angle_last self') lat_active]
    /\ ((3 <= CarState.hands_on_level CS)%Z ->
        apply_angle_last self' = np_clip measured (- STEER_MAX) STEER_MAX
        /\ (Qabs measured <= STEER_MAX -> apply_angle_last self' == measured)
        /\ filter is_steering_control can_sends
           = [create_steering_control (apply_angle_last self') false]
        /\ (CarControl.latActive CC = true ->
            let v := py_max (CarStateOut.vEgoRaw (CarState.out CS)) 20 in
            angle_modifier self' =
              np_clip
                (math_degrees (get_steer_from_curvature VM (filtered self CS / v ^ 2) v 0))
                (angle_modifier self - 5) (angle_modifier self + 5))).
Proof.
  intros self CC CS n Hframe self' can_sends lat_active measured.
  subst self' can_sends.
  rewrite update_steering_commands, update_apply_angle_last,
    update_angle_modifier_eq, Hframe.
  fold measured. unfold steering_command_of, lat_active_of. fold lat_active.
  split; [reflexivity|]. split; [reflexivity|].
  intros Hhands.
  assert (Hoff : lat_active = false).
  { subst lat_active. replace (CarState.hands_on_level CS <? 3)%Z with false.
    - apply andb_false_r.
    - symmetry; apply Z.ltb_ge; exact Hhands. }
  rewrite Hoff, limiter_inactive.
  split; [reflexivity|]. split.
  - intros Hm. apply np_clip_inside, Qabs_Qle_condition; exact Hm.
  - split; [reflexivity|].
    intros Hreq. unfold update_angle_modifier. rewrite Hreq. reflexivity.
Qed.

(** *** The actuator echo *)



End Properties.

(** * Evaluation on the sample configuration *)

Ltac by_computation :=
  vm_compute;
  first [ reflexivity
        | let H := fresh in intro H; discriminate H
        | let H := fresh in intro H; apply H; reflexivity ].

Lemma steer_angle_within_absolute_max_witness :
  0 <= STEER_ANGLE_MAX (ANGLE_LIMITS Sample.P)
  /\ Qabs (apply_tesla_steer_angle_limits Sample.K Sample.P Sample.VM 50 0 20 400 false
             (ANGLE_LIMITS Sample.P))
     <= STEER_ANGLE_MAX (ANGLE_LIMITS Sample.P)
  /\ - STEER_ANGLE_MAX (ANGLE_LIMITS Sample.P)
     <= apply_angle_last
          (run Sample.K Sample.P Sample.owned Sample.VM Sample.lowpass init
             [Sample.tick_off_at_30; Sample.tick_driver_push])
     <= STEER_ANGLE_MAX (ANGLE_LIMITS Sample.P).
Proof.
  assert (H : 0 <= STEER_ANGLE_MAX (ANGLE_LIMITS Sample.P)) by by_computation.
  destruct (steer_angle_within_absolute_max Sample.K Sample.P Sample.owned Sample.VM
              Sample.lowpass unit H) as [A B].
  split; [exact H|]. split; [apply A | apply B].
Defined.

(** C2 fails as stated.  From the initial state, a tick with lateral control
    off and the wheel at 30 degrees moves [apply_angle_last] by 30 degrees,
    far above the rate bound; and when lateral control is then engaged at 20
    m/s the lateral-acceleration clip pulls the angle from 30 degrees to
    about 23.1 degrees in one step, again above the rate bound of about 0.46
    degrees. *)
Lemma steer_angle_step_exceeds_rate_bound :
  let upd := update Sample.K Sample.P Sample.owned Sample.VM Sample.lowpass in
  let bound := max_angle_step Sample.K Sample.P Sample.VM 20 in
  let s1 := snd (update_tick Sample.K Sample.P Sample.owned Sample.VM Sample.lowpass
                   init Sample.tick_off_at_30) in
  let s2 := snd (update_tick Sample.K Sample.P Sample.owned Sample.VM Sample.lowpass
                   s1 Sample.tick_off_at_30) in
  let s3 := snd (upd s2 (Sample.CC 30 0 true false false) (Sample.CS 0 20 30 0 0) 0%Z) in
  ~ Qabs (apply_angle_last s1 - apply_angle_last init) <= bound
  /\ frame s2 = 2%Z
  /\ apply_angle_last s2 == 30
  /\ apply_angle_last s3 == get_max_angle Sample.K Sample.VM 20
  /\ ~ Qabs (apply_angle_last s3 - apply_angle_last s2) <= bound.
Proof.
  cbv zeta. repeat split; by_computation.
Qed.

Lemma steer_angle_step_rate_limited_when_active_witness :
  let upd := update Sample.K Sample.P Sample.owned Sample.VM Sample.lowpass in
  let s1 := snd (upd init (Sample.CC 50 0 true false false) (Sample.CS 0 20 0 0 0) 0%Z) in
  Qabs (apply_angle_last s1 - apply_angle_last init)
    <= max_angle_step Sample.K Sample.P Sample.VM 20
  /\ apply_angle_last
       (snd (upd init (Sample.CC 50 0 false false false) (Sample.CS 0 20 400 0 0) 0%Z))
     = np_clip 400 (- STEER_ANGLE_MAX (ANGLE_LIMITS Sample.P))
         (STEER_ANGLE_MAX (ANGLE_LIMITS Sample.P))
  /\ apply_angle_last
       (snd (upd s1 (Sample.CC 50 0 true false false) (Sample.CS 0 20 0 0 0) 0%Z))
     = apply_angle_last s1
  /\ apply_tesla_steer_angle_limits Sample.K Sample.P Sample.VM 50 0 20 0 true
       (ANGLE_LIMITS Sample.P)
     == max_angle_step Sample.K Sample.P Sample.VM 20.
Proof.
  cbv zeta.
  destruct (steer_angle_step_rate_limited_when_active Sample.K Sample.P Sample.owned
              Sample.VM Sample.lowpass unit) as [A B].
  split; [|split; [|split]].
  - apply (proj1 (A init (Sample.CC 50 0 true false false) (Sample.CS 0 20 0 0 0) 0%Z));
      by_computation.
  - apply (proj1 (proj2 (A init (Sample.CC 50 0 false false false)
                           (Sample.CS 0 20 400 0 0) 0%Z))); reflexivity.
  - apply (proj2 (proj2 (A _ (Sample.CC 50 0 true false false)
                           (Sample.CS 0 20 0 0 0) 0%Z))); reflexivity.
  - apply (proj2 (B 0 (ANGLE_LIMITS Sample.P))).
    + split; by_computation.
    + by_computation.
Defined.

(** C3 fails as stated.  With lateral control inactive and a measured
    steering angle of 400 degrees the limiter returns 360 degrees, the
    absolute maximum, not the measured angle. *)
Lemma inactive_limiter_clamps_measured_angle :
  apply_tesla_steer_angle_limits Sample.K Sample.P Sample.VM 0 0 20 400 false
    (ANGLE_LIMITS Sample.P) == 360
  /\ ~ apply_tesla_steer_angle_limits Sample.K Sample.P Sample.VM 0 0 20 400 false
         (ANGLE_LIMITS Sample.P) == 400.
Proof.
  split; by_computation.
Qed.

Lemma inactive_limiter_returns_clamped_measured_angle_witness :
  apply_tesla_steer_angle_limits Sample.K Sample.P Sample.VM 50 0 20 30 false
    (ANGLE_LIMITS Sample.P) == 30
  /\ apply_tesla_steer_angle_limits Sample.K Sample.P Sample.VM 50 0 20 400 false
       (ANGLE_LIMITS Sample.P) == STEER_ANGLE_MAX (ANGLE_LIMITS Sample.P)
  /\ apply_tesla_steer_angle_limits Sample.K Sample.P Sample.VM 50 0 20 (-400) false
       (ANGLE_LIMITS Sample.P) == - STEER_ANGLE_MAX (ANGLE_LIMITS Sample.P).
Proof.
  split; [|split].
  - apply (proj1 (proj2 (inactive_limiter_returns_clamped_measured_angle
                           Sample.K Sample.P Sample.VM 50 0 20 30
                           (ANGLE_LIMITS Sample.P)))).
    by_computation.
  - apply (proj1 (proj2 (proj2 (inactive_limiter_returns_clamped_measured_angle
                                  Sample.K Sample.P Sample.VM 50 0 20 400
                                  (ANGLE_LIMITS Sample.P))))).
    by_computation.
  - apply (proj2 (proj2 (proj2 (inactive_limiter_returns_clamped_measured_angle
                                  Sample.K Sample.P Sample.VM 50 0 20 (-400)
                                  (ANGLE_LIMITS Sample.P)))));
      by_computation.
Defined.

(** C4 fails as stated.  Without ownership of longitudinal control, a
    cancel request on frame 1 puts a longitudinal command on the bus although
    1 is not a multiple of 4 (and no steering command or heartbeat goes with
    it). *)
Lemma cancel_is_sent_off_schedule :
  let s1 := snd (update_tick Sample.K Sample.P Sample.unowned Sample.VM Sample.lowpass
                   init Sample.tick_idle) in
  let can_sends :=
    snd (fst (update Sample.K Sample.P Sample.unowned Sample.VM Sample.lowpass s1
                (Sample.CC 0 0 false false true) (Sample.CS 0 20 0 0 6) 0%Z)) in
  frame s1 = 1%Z
  /\ (frame s1 mod 4 =? 0)%Z = false
  /\ can_sends = [create_longitudinal_command ACC_CANCEL_GENERIC_SILENT 0 7 20 false]
  /\ existsb is_longitudinal_command can_sends = true.
Proof.
  cbv zeta. repeat split.
Qed.

(** C5 fails as stated.  With the driver pushing at torque 3.5 the modifier
    climbs 5 degrees per steering-rate update and stands at 10 degrees after
    four ticks; when lateral control is then switched off the next
    steering-rate update sets it to 0, a change of 10 degrees. *)
Lemma angle_modifier_reset_exceeds_five_degrees :
  let s4 := run Sample.K Sample.P Sample.owned Sample.VM Sample.lowpass init
              [Sample.tick_driver_push; Sample.tick_driver_push;
               Sample.tick_driver_push; Sample.tick_driver_push] in
  let s5 := snd (update Sample.K Sample.P Sample.owned Sample.VM Sample.lowpass s4
                   (Sample.CC 0 0 false false false) (Sample.CS (7 # 2) 20 0 0 0) 0%Z) in
  (frame s4 mod 2 =? 0)%Z = true
  /\ angle_modifier s4 == 10
  /\ angle_modifier s5 == 0
  /\ ~ Qabs (angle_modifier s5 - angle_modifier s4) <= 5.
Proof.
  cbv zeta. repeat split; by_computation.
Qed.

Lemma angle_modifier_step_witness :
  let s2 := run Sample.K Sample.P Sample.owned Sample.VM Sample.lowpass init
              [Sample.tick_driver_push; Sample.tick_driver_push] in
  let upd := update Sample.K Sample.P Sample.owned Sample.VM Sample.lowpass in
  Qabs (angle_modifier (snd (update_tick Sample.K Sample.P Sample.owned Sample.VM
                               Sample.lowpass s2 Sample.tick_driver_push))
        - angle_modifier s2) <= 5
  /\ angle_modifier (snd (upd s2 (Sample.CC 0 0 false false false)
                            (Sample.CS (7 # 2) 20 0 0 0) 0%Z)) = 0
  /\ angle_modifier (snd (upd (snd (upd s2 (Sample.CC 0 0 true false false)
                                      (Sample.CS (7 # 2) 20 0 0 0) 0%Z))
                            (Sample.CC 0 0 true false false)
                            (Sample.CS (7 # 2) 20 0 0 0) 0%Z))
     = angle_modifier (snd (upd s2 (Sample.CC 0 0 true false false)
                              (Sample.CS (7 # 2) 20 0 0 0) 0%Z)).
Proof.
  cbv zeta.
  split; [|split].
  - apply (proj1 (angle_modifier_step Sample.K Sample.P Sample.owned Sample.VM
                    Sample.lowpass unit _ _ _ _)); reflexivity.
  - apply (proj1 (proj2 (angle_modifier_step Sample.K Sample.P Sample.owned Sample.VM
                           Sample.lowpass unit _ _ _ _))); reflexivity.
  - apply (proj2 (proj2 (angle_modifier_step Sample.K Sample.P Sample.owned Sample.VM
                           Sample.lowpass unit _ _ _ _))); reflexivity.
Defined.

Lemma longitudinal_command_counter_witness :
  let can_sends :=
    snd (fst (update Sample.K Sample.P Sample.unowned Sample.VM Sample.lowpass init
                (Sample.CC 0 1 false true true) (Sample.CS 0 20 0 0 6) 0%Z)) in
  In (create_longitudinal_command ACC_CANCEL_GENERIC_SILENT 0 7 20 false) can_sends
  /\ (0 <= 7 <= 7)%Z
  /\ filter is_longitudinal_command can_sends
     = [create_longitudinal_command ACC_CANCEL_GENERIC_SILENT 0 7 20 false].
Proof.
  cbv zeta.
  destruct (longitudinal_command_counter Sample.K Sample.P Sample.unowned Sample.VM
              Sample.lowpass unit init (Sample.CC 0 1 false true true)
              (Sample.CS 0 20 0 0 6) 0%Z) as [A B].
  destruct (B eq_refl eq_refl) as [F I].
  split; [exact (I eq_refl)|].
  split; [exact (proj1 (A _ _ _ _ _ (I eq_refl)))|exact F].
Defined.

Lemma owned_longitudinal_command_witness :
  let CC := Sample.CC 0 5 false true false in
  let CS := Sample.CS 0 20 0 0 0 in
  filter is_longitudinal_command
    (snd (fst (update Sample.K Sample.P Sample.owned Sample.VM Sample.lowpass init CC CS 0)))
  = [create_longitudinal_command ACC_ON (np_clip 5 (ACCEL_MIN Sample.P) (ACCEL_MAX Sample.P))
       0 20 true]
  /\ ACCEL_MAX Sample.P == 2
  /\ np_clip 5 (ACCEL_MIN Sample.P) (ACCEL_MAX Sample.P) == ACCEL_MAX Sample.P.
Proof.
  cbv zeta.
  destruct (owned_longitudinal_command Sample.K Sample.P Sample.owned Sample.VM
              Sample.lowpass unit init (Sample.CC 0 5 false true false)
              (Sample.CS 0 20 0 0 0) 0%Z eq_refl eq_refl) as (A & _ & B & _).
  split; [exact A|]. split; [reflexivity|].
  apply B. by_computation.
Defined.

Lemma lat_active_requires_light_hands_witness :
  let CC := Sample.CC 10 0 true false false in
  let CS := Sample.CS (7 # 2) 20 25 3 0 in
  let r := update Sample.K Sample.P Sample.owned Sample.VM Sample.lowpass init CC CS 0 in
  apply_angle_last (snd r) == 25
  /\ filter is_steering_control (snd (fst r))
     = [create_steering_control (apply_angle_last (snd r)) false]
  /\ angle_modifier (snd r) == 5.
Proof.
  cbv zeta.
  destruct (lat_active_requires_light_hands Sample.K Sample.P Sample.owned Sample.VM
              Sample.lowpass unit init (Sample.CC 10 0 true false false)
              (Sample.CS (7 # 2) 20 25 3 0) 0%Z eq_refl) as (_ & _ & H).
  destruct H as (_ & A & B & C); [discriminate|].
  split; [apply A; by_computation|]. split; [exact B|].
  rewrite (C eq_refl). by_computation.
Defined.


(** * Further properties of the controller *)

(** ** The dead band on the driver torque (lines 82-85) *)

Ltac deadband_cases t :=
  unfold deadband_torque, np_sign;
  let E := fresh "Hband" in
  destruct (Qle_bool (1 # 2) (Qabs t)) eqn:E;
  [ apply Qle_bool_iff in E
  | assert (Qabs t < 1 # 2)
      by (let Hge := fresh in
          apply Qnot_le_lt; intros Hge; apply Qle_bool_iff in Hge; congruence);
    clear E ];
  destruct (Qcompare_spec t 0).

Lemma deadband_torque_in_range (t : Q) : -3 <= deadband_torque t <= 3.
Proof. deadband_cases t; clip_lra. Qed.

(** X1.  The torque handed to the filter is always within [[-3, 3]], is zero
    for every raw torque of magnitude below 0.5, never has the opposite sign
    of the raw torque and never exceeds it in magnitude. *)
Theorem deadband_torque_range (t : Q) :
  -3 <= deadband_torque t <= 3
  /\ (Qabs t < 1 # 2 -> deadband_torque t == 0)
  /\ (0 <= t -> 0 <= deadband_torque t)
  /\ (t <= 0 -> deadband_torque t <= 0)
  /\ Qabs (deadband_torque t) <= Qabs t.
Proof.
  repeat split; intros; deadband_cases t; clip_lra.
Qed.

(** X2.  The dead band is symmetric: negating the raw torque negates the
    result. *)
Theorem deadband_torque_odd (t : Q) :
  deadband_torque (- t) == - deadband_torque t.
Proof.
  deadband_cases (- t); deadband_cases t; clip_lra.
Qed.

(** X3.  The dead band is monotone and never amplifies a difference: for
    [t1 <= t2] the results differ by at least 0 and at most [t2 - t1], so
    there is no jump at the edge of the dead band or at saturation. *)
Theorem deadband_torque_monotone_lipschitz (t1 t2 : Q) :
  t1 <= t2 ->
  0 <= deadband_torque t2 - deadband_torque t1 <= t2 - t1.
Proof.
  intros Hle. deadband_cases t1; deadband_cases t2; clip_lra.
Qed.

(** ** The limiter with lateral control active (lines 32-48) *)

Section LimiterProperties.

Variable K : Constants.
Variable P : CarControllerParams.
Variable VM : VehicleModel.


Ltac limiter_lra v limits :=
  unfold apply_tesla_steer_angle_limits, max_angle_step in *; cbn [negb] in *;
  cbv zeta in *;
  generalize dependent (get_max_angle_delta K P VM v);
  generalize dependent (get_max_angle K VM v);
  generalize dependent (STEER_ANGLE_MAX limits);
  unfold MAX_ANGLE_RATE; intros; clip_lra.

(** X4.  With lateral control active the result respects the
    lateral-acceleration bound: its magnitude is at most [get_max_angle] of
    the current speed, provided that bound and [STEER_ANGLE_MAX] are
    non-negative. *)
Theorem active_limiter_within_lateral_accel_bound :
  forall apply_angle last v_ego_raw steering_angle limits,
    0 <= get_max_angle K VM v_ego_raw ->
    0 <= STEER_ANGLE_MAX limits ->
    Qabs (apply_tesla_steer_angle_limits K P VM apply_angle last v_ego_raw steering_angle true limits)
      <= get_max_angle K VM v_ego_raw.
Proof.
  intros a l v s limits Hma HM. limiter_lra v limits.
Qed.

(** X5.  A request that is within the rate bound of the previous angle and
    within both angle bounds passes through the limiter unchanged. *)
Theorem active_limiter_passes_admissible_request :
  forall apply_angle last v_ego_raw steering_angle limits,
    Qabs (apply_angle - last) <= max_angle_step K P VM v_ego_raw ->
    Qabs apply_angle <= get_max_angle K VM v_ego_raw ->
    Qabs apply_angle <= STEER_ANGLE_MAX limits ->
    apply_tesla_steer_angle_limits K P VM apply_angle last v_ego_raw steering_angle true limits == apply_angle.
Proof.
  intros a l v s limits H1 H2 H3. limiter_lra v limits.
Qed.

(** X6.  The limiter is monotone in the requested angle: with everything
    else equal, a larger request never gives a smaller result. *)
Theorem limiter_monotone_in_request :
  forall a1 a2 last v_ego_raw steering_angle lat_active limits,
    a1 <= a2 ->
    apply_tesla_steer_angle_limits K P VM a1 last v_ego_raw steering_angle lat_active limits
    <= apply_tesla_steer_angle_limits K P VM a2 last v_ego_raw steering_angle lat_active limits.
Proof.
  intros a1 a2 l v s lat limits Hle. destruct lat.
  - limiter_lra v limits.
  - rewrite !limiter_inactive. apply Qle_refl.
Qed.

(** X7.  With lateral control active, a non-negative rate bound and a
    previous angle within both angle bounds, the result lies between the
    previous angle and the request: the limiter never overshoots the request
    and never moves away from it. *)
Theorem active_limiter_between_last_and_request :
  forall apply_angle last v_ego_raw steering_angle limits,
    0 <= max_angle_step K P VM v_ego_raw ->
    Qabs last <= get_max_angle K VM v_ego_raw ->
    Qabs last <= STEER_ANGLE_MAX limits ->
    Qmin last apply_angle
      <= apply_tesla_steer_angle_limits K P VM apply_angle last v_ego_raw steering_angle true limits
      <= Qmax last apply_angle.
Proof.
  intros a l v s limits H1 H2 H3. limiter_lra v limits.
Qed.

Lemma active_limiter_closes_in a l v s limits :
  0 <= max_angle_step K P VM v ->
  Qabs a <= get_max_angle K VM v ->
  Qabs a <= STEER_ANGLE_MAX limits ->
  Qabs (a - apply_tesla_steer_angle_limits K P VM a l v s true limits) <= Qmax 0 (Qabs (a - l) - max_angle_step K P VM v).
Proof.
  intros H1 H2 H3. limiter_lra v limits.
Qed.

Lemma inject_nat_succ (n : nat) :
  inject_Z (Z.of_nat (S n)) == inject_Z (Z.of_nat n) + 1.
Proof. rewrite Nat2Z.inj_succ, <- Z.add_1_r, inject_Z_plus. reflexivity. Qed.

Lemma inject_nat_nonneg (n : nat) : 0 <= inject_Z (Z.of_nat n).
Proof. change 0 with (inject_Z 0). rewrite <- Zle_Qle. apply Nat2Z.is_nonneg. Qed.

Lemma limiter_steps_distance (n : nat) : forall a l v s limits,
  0 <= max_angle_step K P VM v ->
  Qabs a <= get_max_angle K VM v ->
  Qabs a <= STEER_ANGLE_MAX limits ->
  Qabs (a - limiter_steps K P VM n a l v s limits)
    <= Qmax 0 (Qabs (a - l) - inject_Z (Z.of_nat n) * max_angle_step K P VM v).
Proof.
  induction n as [|n IH]; intros a l v s limits H1 H2 H3.
  - cbn [limiter_steps]. change (inject_Z (Z.of_nat 0)) with 0. name_minmax; lra.
  - cbn [limiter_steps].
    specialize (IH a (apply_tesla_steer_angle_limits K P VM a l v s true limits) v s limits H1 H2 H3).
    pose proof (active_limiter_closes_in a l v s limits H1 H2 H3) as Hone.
    pose proof (inject_nat_succ n) as Hs.
    pose proof (Qmult_le_0_compat _ _ (inject_nat_nonneg n) H1) as Hprod.
    assert (Hmul : inject_Z (Z.of_nat (S n)) * max_angle_step K P VM v
                   == inject_Z (Z.of_nat n) * max_angle_step K P VM v + max_angle_step K P VM v)
      by (rewrite Hs; ring).
    generalize dependent (inject_Z (Z.of_nat (S n)) * max_angle_step K P VM v).
    generalize dependent (inject_Z (Z.of_nat n) * max_angle_step K P VM v).
    generalize dependent (limiter_steps K P VM n a (apply_tesla_steer_angle_limits K P VM a l v s true limits) v s limits).
    generalize dependent (apply_tesla_steer_angle_limits K P VM a l v s true limits).
    intros. name_minmax; lra.
Qed.

(** X8.  Repeated limiter calls close in on a fixed admissible request: with
    lateral control active, a non-negative rate bound and a request within
    both angle bounds, after [n] calls the distance to the request is at most
    the initial distance less [n] rate bounds (and never negative); once [n]
    rate bounds cover the initial distance the result is the request
    itself. *)
Theorem limiter_steps_reach_request :
  forall n apply_angle last v_ego_raw steering_angle limits,
    0 <= max_angle_step K P VM v_ego_raw ->
    Qabs apply_angle <= get_max_angle K VM v_ego_raw ->
    Qabs apply_angle <= STEER_ANGLE_MAX limits ->
    Qabs (apply_angle
          - limiter_steps K P VM n apply_angle last v_ego_raw steering_angle limits)
      <= Qmax 0 (Qabs (apply_angle - last) - inject_Z (Z.of_nat n) * max_angle_step K P VM v_ego_raw)
    /\ (Qabs (apply_angle - last) <= inject_Z (Z.of_nat n) * max_angle_step K P VM v_ego_raw ->
        limiter_steps K P VM n apply_angle last v_ego_raw steering_angle limits
        == apply_angle).
Proof.
  intros n a l v s limits H1 H2 H3.
  pose proof (limiter_steps_distance n a l v s limits H1 H2 H3) as Hd.
  split; [exact Hd|]. intros Hcover.
  generalize dependent (inject_Z (Z.of_nat n) * max_angle_step K P VM v).
  generalize dependent (limiter_steps K P VM n a l v s limits).
  intros. name_minmax; lra.
Qed.

End LimiterProperties.

(** ** Runs of [update] *)

Section UpdateProperties.

Variable K : Constants.
Variable P : CarControllerParams.
Variable CP : CarParams.
Variable VM : VehicleModel.
Variable FirstOrderFilter_update : Q -> Q -> Q.
Variable R : Type.

Local Abbreviation upd := (@update K P CP VM FirstOrderFilter_update R).
Local Abbreviation run_from := (@run K P CP VM FirstOrderFilter_update R).
Local Abbreviation STEER_MAX := (STEER_ANGLE_MAX (ANGLE_LIMITS P)).

Lemma frame_after_run (ticks : list (Tick R)) : forall self,
  frame (run_from self ticks) = (frame self + Z.of_nat (length ticks))%Z.
Proof.
  induction ticks as [|tk ticks IH]; intros self; cbn [run length].
  - cbn; lia.
  - rewrite IH. unfold update_tick. rewrite update_frame. lia.
Qed.

(** X9.  The frame counter counts the calls of [update]: after any sequence
    of ticks from the initial controller it equals the number of ticks, so
    the call with index [k] (from 0) sends a steering command exactly when
    [k] is even and a heartbeat exactly when [k] is a multiple of 10. *)
Theorem frame_counts_update_calls :
  forall (ticks : list (Tick R)) CC CS n,
    let k := Z.of_nat (length ticks) in
    let can_sends := snd (fst (upd (run_from init ticks) CC CS n)) in
    frame (run_from init ticks) = k
    /\ existsb is_steering_control can_sends = (k mod 2 =? 0)%Z
    /\ existsb is_steering_allowed can_sends = (k mod 10 =? 0)%Z.
Proof.
  intros ticks CC CS n k can_sends; subst k can_sends.
  assert (Hf : frame (run_from init ticks) = Z.of_nat (length ticks))
    by (rewrite frame_after_run; cbn; lia).
  split; [exact Hf|].
  rewrite update_can_sends, Hf.
  destruct (Z.of_nat (length ticks) mod 2 =? 0)%Z,
    (Z.of_nat (length ticks) mod 10 =? 0)%Z,
    (openpilotLongitudinalControl CP), (Z.of_nat (length ticks) mod 4 =? 0)%Z,
    (CruiseControl.cancel (CarControl.cruiseControl CC)); split; reflexivity.
Qed.

Lemma even_of_mod10 (f : Z) : (f mod 10 =? 0)%Z = true -> (f mod 2 =? 0)%Z = true.
Proof.
  intros H; apply Z.eqb_eq in H; apply Z.eqb_eq.
  pose proof (Z.div_mod f 10); pose proof (Z.div_mod f 2);
    pose proof (Z.mod_pos_bound f 2); lia.
Qed.

Lemma even_of_mod4 (f : Z) : (f mod 4 =? 0)%Z = true -> (f mod 2 =? 0)%Z = true.
Proof.
  intros H; apply Z.eqb_eq in H; apply Z.eqb_eq.
  pose proof (Z.div_mod f 4); pose proof (Z.div_mod f 2);
    pose proof (Z.mod_pos_bound f 2); lia.
Qed.

(** X10.  A steering-allowed heartbeat never travels alone: whenever
    [update] sends one, the command list starts with the steering command of
    the same tick, immediately followed by the heartbeat. *)
Theorem heartbeat_follows_steering_command :
  forall self CC CS n,
    In create_steering_allowed (snd (fst (upd self CC CS n))) ->
    exists angle enabled others,
      snd (fst (upd self CC CS n))
      = create_steering_control angle enabled :: create_steering_allowed :: others
      /\ forallb is_longitudinal_command others = true.
Proof.
  intros self CC CS n Hin. rewrite update_can_sends in *.
  destruct (frame self mod 10 =? 0)%Z eqn:H10.
  - rewrite (even_of_mod10 _ H10). unfold steering_command_of.
    eexists _, _, _. split; [reflexivity|].
    destruct (openpilotLongitudinalControl CP), (frame self mod 4 =? 0)%Z,
      (CruiseControl.cancel (CarControl.cruiseControl CC)); reflexivity.
  - exfalso.
    destruct (frame self mod 2 =? 0)%Z, (openpilotLongitudinalControl CP),
      (frame self mod 4 =? 0)%Z, (CruiseControl.cancel (CarControl.cruiseControl CC));
      cbn in Hin; intuition discriminate.
Qed.

(** X11.  On an odd frame [update] sends nothing at all when the controller
    owns longitudinal control; when it does not, the only command it can send
    is the cancel command, and only with a cancel request pending. *)
Theorem odd_frame_commands :
  forall self CC CS n,
    (frame self mod 2 =? 0)%Z = false ->
    snd (fst (upd self CC CS n))
    = if openpilotLongitudinalControl CP then []
      else if CruiseControl.cancel (CarControl.cruiseControl CC)
           then [create_longitudinal_command ACC_CANCEL_GENERIC_SILENT 0
                   ((CarState.DAS_controlCounter CS + 1) mod 8)%Z
                   (CarStateOut.vEgo (CarState.out CS)) false]
           else [].
Proof.
  intros self CC CS n Hodd. rewrite update_can_sends, Hodd.
  destruct (frame self mod 10 =? 0)%Z eqn:H10;
    [rewrite (even_of_mod10 _ H10) in Hodd; discriminate|].
  destruct (frame self mod 4 =? 0)%Z eqn:H4;
    [rewrite (even_of_mod4 _ H4) in Hodd; discriminate|].
  destruct (openpilotLongitudinalControl CP),
    (CruiseControl.cancel (CarControl.cruiseControl CC)); reflexivity.
Qed.

Lemma mod20_iff (f : Z) :
  ((f mod 2 =? 0) && (f mod 10 =? 0) && (f mod 4 =? 0))%Z%bool = (f mod 20 =? 0)%Z.
Proof.
  pose proof (Z.div_mod f 2); pose proof (Z.mod_pos_bound f 2);
    pose proof (Z.div_mod f 10); pose proof (Z.mod_pos_bound f 10);
    pose proof (Z.div_mod f 4); pose proof (Z.mod_pos_bound f 4);
    pose proof (Z.div_mod f 20); pose proof (Z.mod_pos_bound f 20).
  destruct (f mod 2 =? 0)%Z eqn:E2, (f mod 10 =? 0)%Z eqn:E10,
    (f mod 4 =? 0)%Z eqn:E4, (f mod 20 =? 0)%Z eqn:E20; cbn; try reflexivity;
    repeat match goal with
    | H : (_ =? _)%Z = true |- _ => apply Z.eqb_eq in H
    | H : (_ =? _)%Z = false |- _ => apply Z.eqb_neq in H
    end; lia.
Qed.

(** X12.  One call of [update] sends at most three commands; when the
    controller owns longitudinal control it sends all three (steering,
    heartbeat, longitudinal, in that order) exactly on the frames that are
    multiples of 20. *)
Theorem command_list_size :
  forall self CC CS n,
    let can_sends := snd (fst (upd self CC CS n)) in
    (length can_sends <= 3)%nat
    /\ (openpilotLongitudinalControl CP = true ->
        (length can_sends =? 3)%nat = (frame self mod 20 =? 0)%Z
        /\ ((frame self mod 20 =? 0)%Z = true ->
            map is_steering_control can_sends = [true; false; false]
            /\ map is_steering_allowed can_sends = [false; true; false]
            /\ map is_longitudinal_command can_sends = [false; false; true])).
Proof.
  intros self CC CS n can_sends; subst can_sends. rewrite update_can_sends.
  split.
  - destruct (frame self mod 2 =? 0)%Z, (frame self mod 10 =? 0)%Z,
      (openpilotLongitudinalControl CP), (frame self mod 4 =? 0)%Z,
      (CruiseControl.cancel (CarControl.cruiseControl CC)); cbn; lia.
  - intros ->. rewrite <- mod20_iff.
    destruct (frame self mod 2 =? 0)%Z, (frame self mod 10 =? 0)%Z,
      (frame self mod 4 =? 0)%Z; cbn; split; try reflexivity;
      intros; try discriminate; repeat split.
Qed.

Lemma next_counter (f : Z) : (((f + 4) / 4) mod 8 = ((f / 4) mod 8 + 1) mod 8)%Z.
Proof.
  replace (f + 4)%Z with (f + 1 * 4)%Z by lia.
  rewrite Z.div_add by lia. rewrite Zplus_mod_idemp_l. reflexivity.
Qed.

(** X14.  In owned mode the longitudinal counter is a rolling 3-bit counter:
    the command sent four frames after another carries the previous counter
    plus one, modulo 8. *)
Theorem owned_counter_rolls :
  forall self1 CC1 CS1 n1 self2 CC2 CS2 n2,
    openpilotLongitudinalControl CP = true ->
    (frame self1 mod 4 =? 0)%Z = true ->
    frame self2 = (frame self1 + 4)%Z ->
    exists st1 a1 c v1 act1 st2 a2 v2 act2,
      filter is_longitudinal_command (snd (fst (upd self1 CC1 CS1 n1)))
      = [create_longitudinal_command st1 a1 c v1 act1]
      /\ filter is_longitudinal_command (snd (fst (upd self2 CC2 CS2 n2)))
         = [create_longitudinal_command st2 a2 ((c + 1) mod 8)%Z v2 act2].
Proof.
  intros self1 CC1 CS1 n1 self2 CC2 CS2 n2 Hmode H4 Hnext.
  rewrite !update_longitudinal_commands, Hmode, H4.
  assert (H4' : (frame self2 mod 4 =? 0)%Z = true).
  { apply Z.eqb_eq in H4; apply Z.eqb_eq. rewrite Hnext.
    replace (frame self1 + 4)%Z with (frame self1 + 1 * 4)%Z by lia.
    rewrite Z.mod_add by lia. exact H4. }
  rewrite H4'. unfold owned_command_of. rewrite Hnext, next_counter.
  eexists _, _, _, _, _, _, _, _, _. split; reflexivity.
Qed.

(** X15.  With lateral control requested, a steering-rate update moves
    [angle_modifier] towards the angle derived from the filtered driver
    torque without overshooting it, and reaches it at once when it is within
    5 degrees. *)
Theorem angle_modifier_follows_torque_angle :
  forall self CC CS n,
    (frame self mod 2 =? 0)%Z = true ->
    CarControl.latActive CC = true ->
    let v := py_max (CarStateOut.vEgoRaw (CarState.out CS)) 20 in
    let torque := filtered_torque FirstOrderFilter_update self CS in
    let target := math_degrees (get_steer_from_curvature VM (torque / v ^ 2) v 0) in
    let new_modifier := angle_modifier (snd (upd self CC CS n)) in
    Qmin (angle_modifier self) target <= new_modifier <= Qmax (angle_modifier self) target
    /\ (Qabs (target - angle_modifier self) <= 5 -> new_modifier == target).
Proof.
  intros self CC CS n Hf Hl v torque target new_modifier; subst new_modifier.
  rewrite update_angle_modifier_eq, Hf. unfold update_angle_modifier. rewrite Hl.
  cbv zeta. fold v. fold torque. fold target.
  generalize target, (angle_modifier self). intros. split; [|intros]; clip_lra.
Qed.

(** X16.  The filter is only ever fed values within [[-3, 3]]; hence for any
    filter whose result lies between its previous value and the new sample,
    the filtered driver torque stays within [[-3, 3]] over every run from the
    initial controller. *)
Theorem filtered_torque_bounded :
  (forall x u, Qmin x u <= FirstOrderFilter_update x u <= Qmax x u) ->
  forall ticks : list (Tick R),
    -3 <= driver_torque (run_from init ticks) <= 3.
Proof.
  intros Hfilter ticks.
  assert (Hinv : forall self, -3 <= driver_torque self <= 3 ->
                   -3 <= driver_torque (run_from self ticks) <= 3).
  { induction ticks as [|tk ticks IH]; intros self Hself; cbn [run]; [exact Hself|].
    apply IH. unfold update_tick. rewrite update_driver_torque. unfold filtered_torque.
    pose proof (deadband_torque_in_range
                  (CarStateOut.steeringTorque (CarState.out (snd (fst tk))))) as Hd.
    pose proof (Hfilter (driver_torque self)
                  (deadband_torque
                     (CarStateOut.steeringTorque (CarState.out (snd (fst tk)))))) as Hf.
    generalize dependent (deadband_torque
                            (CarStateOut.steeringTorque (CarState.out (snd (fst tk))))).
    intros d Hd Hf.
    generalize dependent (FirstOrderFilter_update (driver_torque self) d).
    intros. name_minmax; lra. }
  apply Hinv. cbn. lra.
Qed.

End UpdateProperties.

(** ** The speed floor (lines 20 and 26) *)

Section SpeedFloor.

Variable K : Constants.
Variable P : CarControllerParams.
Variable VM : VehicleModel.

Lemma floored_quotient_bounds (bound v : Q) :
  0 <= bound -> 0 <= bound / (py_max v 1) ^ 2 <= bound.
Proof.
  intros Hb. unfold py_max.
  assert (Hm : 1 <= Qmax v 1) by (name_minmax; lra).
  change ((Qmax v 1) ^ 2) with (Qmax v 1 * Qmax v 1).
  generalize dependent (Qmax v 1); intros m Hm.
  assert (Hsq : 0 <= (m - 1) * (m + 1)) by (apply Qmult_le_0_compat; lra).
  assert (Hone : 1 <= m * m) by lra.
  assert (Hpos : 0 < m * m) by lra.
  assert (Hgrow : 0 <= bound * (m * m - 1)) by (apply Qmult_le_0_compat; lra).
  split.
  - apply Qle_shift_div_l; [exact Hpos|]. lra.
  - apply Qle_shift_div_r; [exact Hpos|]. lra.
Qed.

(** X17.  Because the speed is floored at 1 before it is squared, the
    curvature (rate) handed to the vehicle model is never negative and never
    above [MAX_LATERAL_ACCEL] (for [get_max_angle]) or [MAX_LATERAL_JERK]
    (for [get_max_angle_delta]), at every speed, standstill and negative
    readings included; this holds for non-negative gravity and ISO
    constants. *)
Theorem speed_floor_bounds_curvature :
  forall v_ego_raw,
    0 <= ACCELERATION_DUE_TO_GRAVITY K ->
    0 <= ISO_LATERAL_ACCEL K ->
    (exists max_curvature,
        get_max_angle K VM v_ego_raw
        = math_degrees (get_steer_from_curvature VM max_curvature v_ego_raw 0)
        /\ 0 <= max_curvature <= MAX_LATERAL_ACCEL K)
    /\ (exists max_curvature_rate_sec,
          get_max_angle_delta K P VM v_ego_raw
          = math_degrees (get_steer_from_curvature VM max_curvature_rate_sec v_ego_raw 0)
            * (DT_CTRL K * STEER_STEP P)
          /\ 0 <= max_curvature_rate_sec <= MAX_LATERAL_JERK K).
Proof.
  intros v Hg Hiso.
  assert (Ha : 0 <= MAX_LATERAL_ACCEL K)
    by (unfold MAX_LATERAL_ACCEL, AVERAGE_ROAD_ROLL; lra).
  assert (Hj : 0 <= MAX_LATERAL_JERK K)
    by (unfold MAX_LATERAL_JERK, AVERAGE_ROAD_ROLL; lra).
  split.
  - exists (MAX_LATERAL_ACCEL K / (py_max v 1) ^ 2).
    split; [reflexivity|]. apply floored_quotient_bounds; exact Ha.
  - exists (MAX_LATERAL_JERK K / (py_max v 1) ^ 2).
    split; [reflexivity|]. apply floored_quotient_bounds; exact Hj.
Qed.

End SpeedFloor.

(** ** Evaluation of the further properties on the sample configuration *)

Lemma deadband_torque_range_witness :
  Qabs (1 # 4) < 1 # 2 /\ deadband_torque (1 # 4) == 0
  /\ 0 <= 2 /\ 0 <= deadband_torque 2.
Proof.
  destruct (deadband_torque_range (1 # 4)) as (_ & A & _).
  destruct (deadband_torque_range 2) as (_ & _ & B & _).
  assert (H1 : Qabs (1 # 4) < 1 # 2) by reflexivity.
  assert (H2 : 0 <= 2) by by_computation.
  split; [exact H1|]. split; [exact (A H1)|]. split; [exact H2|exact (B H2)].
Defined.

Lemma deadband_torque_monotone_lipschitz_witness :
  (1 # 4) <= 2
  /\ 0 <= deadband_torque 2 - deadband_torque (1 # 4) <= 2 - (1 # 4).
Proof.
  assert (H : (1 # 4) <= 2) by by_computation.
  split; [exact H|]. exact (deadband_torque_monotone_lipschitz (1 # 4) 2 H).
Defined.

Lemma active_limiter_within_lateral_accel_bound_witness :
  Qabs (apply_tesla_steer_angle_limits Sample.K Sample.P Sample.VM 50 30 20 0 true
          (ANGLE_LIMITS Sample.P))
    <= get_max_angle Sample.K Sample.VM 20.
Proof.
  apply (active_limiter_within_lateral_accel_bound Sample.K Sample.P Sample.VM);
    by_computation.
Defined.

Lemma active_limiter_passes_admissible_request_witness :
  apply_tesla_steer_angle_limits Sample.K Sample.P Sample.VM (1 # 4) 0 20 0 true
    (ANGLE_LIMITS Sample.P) == 1 # 4.
Proof.
  apply (active_limiter_passes_admissible_request Sample.K Sample.P Sample.VM);
    by_computation.
Defined.

Lemma limiter_monotone_in_request_witness :
  apply_tesla_steer_angle_limits Sample.K Sample.P Sample.VM (1 # 10) 0 20 0 true
    (ANGLE_LIMITS Sample.P)
  <= apply_tesla_steer_angle_limits Sample.K Sample.P Sample.VM 2 0 20 0 true
       (ANGLE_LIMITS Sample.P).
Proof.
  apply (limiter_monotone_in_request Sample.K Sample.P Sample.VM); by_computation.
Defined.

Lemma active_limiter_between_last_and_request_witness :
  Qmin 0 50
    <= apply_tesla_steer_angle_limits Sample.K Sample.P Sample.VM 50 0 20 0 true
         (ANGLE_LIMITS Sample.P)
    <= Qmax 0 50.
Proof.
  apply (active_limiter_between_last_and_request Sample.K Sample.P Sample.VM);
    by_computation.
Defined.

Lemma limiter_steps_reach_request_witness :
  Qabs (1 - 0) <= inject_Z (Z.of_nat 3) * max_angle_step Sample.K Sample.P Sample.VM 20
  /\ limiter_steps Sample.K Sample.P Sample.VM 3 1 0 20 0 (ANGLE_LIMITS Sample.P) == 1.
Proof.
  assert (H : Qabs (1 - 0)
              <= inject_Z (Z.of_nat 3) * max_angle_step Sample.K Sample.P Sample.VM 20)
    by by_computation.
  split; [exact H|].
  apply (proj2 (limiter_steps_reach_request Sample.K Sample.P Sample.VM 3 1 0 20 0
                  (ANGLE_LIMITS Sample.P)
                  ltac:(by_computation) ltac:(by_computation) ltac:(by_computation))).
  exact H.
Defined.

Lemma heartbeat_follows_steering_command_witness :
  exists angle enabled others,
    snd (fst (update Sample.K Sample.P Sample.owned Sample.VM Sample.lowpass init
                (Sample.CC 0 0 false false false) (Sample.CS 0 20 0 0 0) 0%Z))
    = create_steering_control angle enabled :: create_steering_allowed :: others
    /\ forallb is_longitudinal_command others = true.
Proof.
  apply (heartbeat_follows_steering_command Sample.K Sample.P Sample.owned Sample.VM
           Sample.lowpass unit).
  vm_compute. right; left; reflexivity.
Defined.

Lemma odd_frame_commands_witness :
  snd (fst (update Sample.K Sample.P Sample.owned Sample.VM Sample.lowpass
              (snd (update_tick Sample.K Sample.P Sample.owned Sample.VM Sample.lowpass
                      init Sample.tick_idle))
              (Sample.CC 10 1 true true true) (Sample.CS 0 20 0 0 0) 0%Z))
  = [].
Proof.
  apply (odd_frame_commands Sample.K Sample.P Sample.owned Sample.VM Sample.lowpass unit).
  reflexivity.
Defined.

Lemma command_list_size_witness :
  let can_sends :=
    snd (fst (update Sample.K Sample.P Sample.owned Sample.VM Sample.lowpass init
                (Sample.CC 0 0 true true false) (Sample.CS 0 20 0 0 0) 0%Z)) in
  (length can_sends <= 3)%nat
  /\ map is_steering_control can_sends = [true; false; false]
  /\ map is_steering_allowed can_sends = [false; true; false]
  /\ map is_longitudinal_command can_sends = [false; false; true].
Proof.
  cbv zeta.
  destruct (command_list_size Sample.K Sample.P Sample.owned Sample.VM Sample.lowpass unit
              init (Sample.CC 0 0 true true false) (Sample.CS 0 20 0 0 0) 0%Z) as [A B].
  split; [exact A|]. exact (proj2 (B eq_refl) eq_refl).
Defined.

Lemma owned_counter_rolls_witness :
  let s4 := run Sample.K Sample.P Sample.owned Sample.VM Sample.lowpass init
              [Sample.tick_idle; Sample.tick_idle; Sample.tick_idle; Sample.tick_idle] in
  exists st1 a1 c v1 act1 st2 a2 v2 act2,
    filter is_longitudinal_command
      (snd (fst (update Sample.K Sample.P Sample.owned Sample.VM Sample.lowpass init
                   (Sample.CC 0 1 false true false) (Sample.CS 0 20 0 0 0) 0%Z)))
    = [create_longitudinal_command st1 a1 c v1 act1]
    /\ filter is_longitudinal_command
         (snd (fst (update Sample.K Sample.P Sample.owned Sample.VM Sample.lowpass s4
                      (Sample.CC 0 1 false true false) (Sample.CS 0 20 0 0 0) 0%Z)))
       = [create_longitudinal_command st2 a2 ((c + 1) mod 8)%Z v2 act2].
Proof.
  cbv zeta.
  apply (owned_counter_rolls Sample.K Sample.P Sample.owned Sample.VM Sample.lowpass unit);
    reflexivity.
Defined.

Lemma angle_modifier_follows_torque_angle_witness :
  let CC := Sample.CC 0 0 true false false in
  let CS := Sample.CS (7 # 2) 20 0 0 0 in
  let v := py_max (CarStateOut.vEgoRaw (CarState.out CS)) 20 in
  let target :=
    math_degrees
      (get_steer_from_curvature Sample.VM
         (filtered_torque Sample.lowpass init CS / v ^ 2) v 0) in
  Qmin (angle_modifier init) target
    <= angle_modifier
         (snd (update Sample.K Sample.P Sample.owned Sample.VM Sample.lowpass init CC CS 0))
    <= Qmax (angle_modifier init) target.
Proof.
  cbv zeta.
  apply (proj1 (angle_modifier_follows_torque_angle Sample.K Sample.P Sample.owned
                  Sample.VM Sample.lowpass unit init (Sample.CC 0 0 true false false)
                  (Sample.CS (7 # 2) 20 0 0 0) 0%Z eq_refl eq_refl)).
Defined.

Lemma lowpass_between (x u : Q) : Qmin x u <= Sample.lowpass x u <= Qmax x u.
Proof.
  assert (Ha : Sample.alpha == 10 # 13) by reflexivity.
  assert (Hl : Sample.lowpass x u == (3 # 13) * x + (10 # 13) * u)
    by (unfold Sample.lowpass; rewrite Ha; ring).
  generalize dependent (Sample.lowpass x u). intros. name_minmax; lra.
Qed.

Lemma filtered_torque_bounded_witness :
  -3 <= driver_torque
          (run Sample.K Sample.P Sample.owned Sample.VM Sample.lowpass init
             [Sample.tick_driver_push; Sample.tick_driver_push; Sample.tick_idle])
     <= 3.
Proof.
  apply (filtered_torque_bounded Sample.K Sample.P Sample.owned Sample.VM Sample.lowpass
           unit lowpass_between).
Defined.

Lemma speed_floor_bounds_curvature_witness :
  exists max_curvature,
    get_max_angle Sample.K Sample.VM 0
    = math_degrees (get_steer_from_curvature Sample.VM max_curvature 0 0)
    /\ 0 <= max_curvature <= MAX_LATERAL_ACCEL Sample.K.
Proof.
  apply (proj1 (speed_floor_bounds_curvature Sample.K Sample.P Sample.VM 0
                  ltac:(by_computation) ltac:(by_computation))).
Defined.
